(** * The S3 database writer of geoipupdate

    A shallow embedding of [internal/geoipupdate/database/s3_file_writer.go]:
    the [S3DatabaseWriter] with its two operations, [GetHash] (query the
    store for the content identifier of an edition) and [Write] (stage the
    downloaded stream in a temp file, validate its hash, upload it).

    Go errors are a small tree type, the collaborators of the writer (the
    input stream, the local file system, the S3 client) are explicit state
    and outcome tables, and every call that leaves the process is recorded
    in a trace so that orderings can be stated. *)

From Stdlib Require Import String Ascii List Bool ZArith Lia.
From stdpp Require Import base strings gmap list.

Import ListNotations.
Local Open Scope string_scope.
Set Warnings "-register-all".

(** ** Go errors *)

Module GoErrors.

(** The error values the writer sees and builds.  [wrapError] is what
    [fmt.Errorf] returns for a format with one [%w]: it stores the formatted
    text and the wrapped error.  [joinError] is what [errors.Join] returns. *)
Inductive error : Type :=
| errorString (s : string)
| NoSuchKey (msg : string)
| wrapError (msg : string) (err : error)
| joinError (errs : list error).

Definition newline : string := String (ascii_of_nat 10) EmptyString.

(** [err.Error()]. *)
Fixpoint Error (e : error) : string :=
  match e with
  | errorString s => s
  | NoSuchKey msg => "NoSuchKey: " +:+ msg
  | wrapError msg _ => msg
  | joinError errs =>
      (fix lines (l : list error) : string :=
         match l with
         | [] => ""
         | e0 :: rest =>
             match rest with
             | [] => Error e0
             | _ :: _ => Error e0 +:+ newline +:+ lines rest
             end
         end) errs
  end.

(** [fmt.Errorf(prefix + "%w", err)], the prefix already formatted. *)
Definition Errorf_w (prefix : string) (err : error) : error :=
  wrapError (prefix +:+ Error err) err.

(** [errors.Join]: nil arguments are dropped, and the result is nil when
    nothing is left. *)
Definition errors_Join (errs : list (option error)) : option error :=
  match omap id errs with
  | [] => None
  | e :: es => Some (joinError (e :: es))
  end.

(** [errors.As(err, &target)] for a target of type [*types.NoSuchKey]: the
    tree of [err] is walked depth first through [Unwrap() error] and
    [Unwrap() []error]. *)
Fixpoint errors_As_NoSuchKey (e : error) : bool :=
  match e with
  | errorString _ => false
  | NoSuchKey _ => true
  | wrapError _ err => errors_As_NoSuchKey err
  | joinError errs =>
      (fix any (l : list error) : bool :=
         match l with
         | [] => false
         | e0 :: rest => errors_As_NoSuchKey e0 || any rest
         end) errs
  end.

(** [errors.Is(e, target)] by structural identity of the target: does
    [target] occur in the tree of [e]? *)
Fixpoint error_eqb (a b : error) {struct a} : bool :=
  match a, b with
  | errorString s, errorString t => String.eqb s t
  | NoSuchKey s, NoSuchKey t => String.eqb s t
  | wrapError m e, wrapError n f => String.eqb m n && error_eqb e f
  | joinError l, joinError k =>
      (fix all2 (l : list error) (k : list error) : bool :=
         match l, k with
         | [], [] => true
         | x :: l', y :: k' => error_eqb x y && all2 l' k'
         | _, _ => false
         end) l k
  | _, _ => false
  end.

Fixpoint reports (e target : error) {struct e} : bool :=
  error_eqb e target ||
  match e with
  | wrapError _ err => reports err target
  | joinError errs =>
      (fix any (l : list error) : bool :=
         match l with
         | [] => false
         | e0 :: rest => reports e0 target || any rest
         end) errs
  | _ => false
  end.

End GoErrors.
Export GoErrors.

(** ** The collaborators of the writer *)

Abbreviation bytes := (list Byte.byte).

(** What one [Read] of the caller's stream yields: a chunk of data or an
    error.  The end of the list is [io.EOF]. *)
Inductive ReadEvent : Type :=
| ReadData (chunk : bytes)
| ReadErr (e : error).

(** The caller-supplied [io.ReadCloser]: what its next reads yield, what
    [Close] returns, and how often [Close] has been called. *)
Record ReadCloser : Type := mkReadCloser {
  pending : list ReadEvent;
  close_result : option error;
  close_calls : nat;
}.

(** Resources that must be released by whoever acquired them. *)
Inductive Handle : Type :=
| HReader                                   (* the [reader] argument of Write *)
| HFileWriter (path : string)               (* [fw], the staged-file writer *)
| HFile (path : string)                     (* [s3Body], the temp file opened for reading *)
| HResponseBody (bucket key : string).      (* [response.Body] of a GetObject *)

#[global] Instance Handle_eq_dec : EqDecision Handle.
Proof. solve_decision. Defined.

(** [s3.PutObjectInput], with the fields the writer sets and the two the
    store uses for provenance, [Tagging] and [Metadata].  A Go pointer is an
    option, a nil map the empty map. *)
Record PutObjectInput : Type := mkPutObjectInput {
  Bucket : option string;
  Key : option string;
  ServerSideEncryption : string;
  Body : option Handle;
  Tagging : option string;
  Metadata : gmap string string;
}.

(** [s3.GetObjectOutput]: the [ETag] pointer.  Its [Body] is the handle
    [HResponseBody] of the request. *)
Record GetObjectOutput : Type := mkGetObjectOutput {
  ETag : option string;
}.

(** The S3 client, as the answers it gives.  [PutObject] sees the request
    and the bytes it reads from the request's body. *)
Record S3Client : Type := mkS3Client {
  GetObject : string -> string -> GetObjectOutput + error;
  PutObject : PutObjectInput -> bytes -> option error;
}.

(** The outcomes of the local system calls of one attempt. *)
Record OS : Type := mkOS {
  create_err : string -> option error;        (* creating the file and its directory *)
  write_err : bytes -> bytes -> option error; (* writing a chunk after the given contents *)
  sync_err : option error;                    (* flushing the staged file *)
  close_writer_err : option error;            (* closing the staged-file writer *)
  open_err : string -> option error;          (* os.OpenFile(path, O_RDONLY) *)
  close_file_err : option error;              (* closing the file opened for reading *)
}.

Inductive Event : Type :=
| EvGetObject (bucket key : string) (ok : bool)
| EvCreate (path : string) (ok : bool)
| EvStage (path : string) (ok : bool)
| EvValidate (expected : string) (ok : bool)
| EvOpen (path : string) (ok : bool)
| EvPutObject (input : PutObjectInput) (body : bytes) (ok : bool)
| EvDrain (ok : bool)
| EvClose (h : Handle) (ok : bool)
| EvLog (msg : string).

(** The state the operations run in: local files, the caller's stream, the
    handles that are open, and the calls made so far (oldest first). *)
Record World : Type := mkWorld {
  files : gmap string bytes;
  reader : ReadCloser;
  open_handles : list Handle;
  trace : list Event;
}.

Definition emit (ev : Event) (st : World) : World :=
  mkWorld (files st) (reader st) (open_handles st) (trace st ++ [ev]).

Definition acquire (h : Handle) (st : World) : World :=
  mkWorld (files st) (reader st) (h :: open_handles st) (trace st).

Fixpoint remove_first (h : Handle) (l : list Handle) : list Handle :=
  match l with
  | [] => []
  | x :: rest => if decide (x = h) then rest else x :: remove_first h rest
  end.

Definition release (h : Handle) (st : World) : World :=
  mkWorld (files st) (reader st) (remove_first h (open_handles st)) (trace st).

Definition set_reader (r : ReadCloser) (st : World) : World :=
  mkWorld (files st) r (open_handles st) (trace st).

Definition set_file (path : string) (content : bytes) (st : World) : World :=
  mkWorld (<[path := content]> (files st)) (reader st) (open_handles st) (trace st).

(** [err == nil]. *)
Definition is_ok (err : option error) : bool :=
  match err with None => true | Some _ => false end.

(** A result of a Go call that may panic. *)
Inductive GoResult (A : Type) : Type :=
| Returned (a : A)
| Panicked (msg : string).
Arguments Returned {A} a.
Arguments Panicked {A} msg.

(** ** io.Copy *)

(** [io.Copy(dst, src)] over the reads [src] still yields: chunks go to
    [write] until the stream ends (nil), a read fails or a write fails.
    Returns what is left of the stream, the destination and the error. *)
Fixpoint io_Copy {W : Type} (write : W -> bytes -> W * option error)
    (src : list ReadEvent) (dst : W) : list ReadEvent * W * option error :=
  match src with
  | [] => ([], dst, None)
  | ReadErr e :: rest => (rest, dst, Some e)
  | ReadData chunk :: rest =>
      match write dst chunk with
      | (dst', None) => io_Copy write rest dst'
      | (dst', Some e) => (rest, dst', Some e)
      end
  end.

(** [io.Discard]. *)
Definition Discard (_ : unit) (_ : bytes) : unit * option error := (tt, None).

(** ** The writer *)

(** [DateModifiedTag], the name of the tag for the modification date received
    from the MaxMind servers. *)
Definition DateModifiedTag : string := "DateOfSourceDatabaseModification".

(** [types.ServerSideEncryptionAes256]. *)
Definition ServerSideEncryptionAes256 : string := "AES256".

Record S3DatabaseWriter : Type := mkS3DatabaseWriter {
  s3Client : S3Client;
  s3Bucket : string;
  disableEncryption : bool;
  verbose : bool;
}.

(** [NewS3DatabaseWriter]: the writer and a nil error. *)
Definition NewS3DatabaseWriter (client : S3Client) (bucket : string) (verbose : bool)
  : S3DatabaseWriter * option error :=
  ({| s3Client := client;
      s3Bucket := bucket;
      disableEncryption := false;
      verbose := verbose |}, None).

(** ASCII case folding, for [strings.EqualFold] on hex digests. *)
Definition lower (c : ascii) : ascii :=
  let n := nat_of_ascii c in
  if (65 <=? n)%nat && (n <=? 90)%nat then ascii_of_nat (n + 32) else c.

Fixpoint lower_string (s : string) : string :=
  match s with
  | EmptyString => EmptyString
  | String c rest => String (lower c) (lower_string rest)
  end.

Definition EqualFold (s t : string) : bool :=
  String.eqb (lower_string s) (lower_string t).

(** The staged-file writer [fw]: the path of the file it writes. *)
Record fileWriter : Type := mkFileWriter { fw_path : string }.

Section Writer.

(** Constants and library functions the file uses and does not define: the
    package constants [ZeroMD5], [extension] and [tempExtension], Go's
    [path.Join], and the MD5 digest of a byte string printed in hex. *)
Variables ZeroMD5 extension tempExtension : string.
Variable path_Join : string -> string -> string.
Variable md5_hex : bytes -> string.

(** The local system the attempt runs on. *)
Variable os : OS.

Definition file_content (path : string) (st : World) : bytes :=
  default [] (files st !! path).

(** Modelled from the spec: [newFileWriter], not among the sources.  It
    opens or creates the file at [path], creating parent directories as
    needed (section 4.1, stage); an existing file is overwritten. *)
Definition newFileWriter (path : string) (st : World) : World * (fileWriter + error) :=
  match create_err os path with
  | Some e => (emit (EvCreate path false) st, inr e)
  | None =>
      (emit (EvCreate path true) (acquire (HFileWriter path) (set_file path [] st)),
       inl (mkFileWriter path))
  end.

(** One write of a chunk to the staged file. *)
Definition file_write (content chunk : bytes) : bytes * option error :=
  match write_err os content chunk with
  | Some e => (content, Some e)
  | None => ((content ++ chunk)%list, None)
  end.

(** Modelled from the spec: [fw.write], not among the sources.  It copies
    the entire input stream into the staged file and flushes it before
    returning; a failed read or write ends it with the error (section 4.1,
    stage). *)
Definition fw_write (fw : fileWriter) (st : World) : World * option error :=
  let path := fw_path fw in
  let '(rest, content, err) :=
    io_Copy file_write (pending (reader st)) (file_content path st) in
  let r := reader st in
  let st1 := set_file path content
               (set_reader (mkReadCloser rest (close_result r) (close_calls r)) st) in
  match err with
  | Some e => (emit (EvStage path false) st1, Some e)
  | None =>
      match sync_err os with
      | Some e => (emit (EvStage path false) st1, Some e)
      | None => (emit (EvStage path true) st1, None)
      end
  end.

Definition HashMismatchError (actual expected : string) : error :=
  errorString ("md5 of new database (" +:+ actual +:+
               ") does not match expected md5 (" +:+ expected +:+ ")").

(** Modelled from the spec: [fw.validateHash], not among the sources.  It
    computes the content hash of the staged file and compares it with the
    expected one, ignoring the case of the hex digits (section 4.1,
    validateHash). *)
Definition fw_validateHash (fw : fileWriter) (expected : string) (st : World)
  : World * option error :=
  let actual := md5_hex (file_content (fw_path fw) st) in
  if EqualFold actual expected
  then (emit (EvValidate expected true) st, None)
  else (emit (EvValidate expected false) st, Some (HashMismatchError actual expected)).

(** Modelled from the spec: [fw.close], not among the sources.  It closes
    the staged-file handle; the staged file is not deleted (section 4.1,
    side effects). *)
Definition fw_close (fw : fileWriter) (st : World) : World * option error :=
  let h := HFileWriter (fw_path fw) in
  (emit (EvClose h (is_ok (close_writer_err os))) (release h st), close_writer_err os).

(** [os.OpenFile(path, os.O_RDONLY, 0o644)]. *)
Definition os_OpenFile (path : string) (st : World) : World * (Handle + error) :=
  match open_err os path with
  | Some e => (emit (EvOpen path false) st, inr e)
  | None =>
      match files st !! path with
      | None =>
          (emit (EvOpen path false) st,
           inr (errorString ("open " +:+ path +:+ ": no such file or directory")))
      | Some _ => (emit (EvOpen path true) (acquire (HFile path) st), inl (HFile path))
      end
  end.

(** [s3Body.Close()]. *)
Definition file_Close (h : Handle) (st : World) : World * option error :=
  (emit (EvClose h (is_ok (close_file_err os))) (release h st), close_file_err os).

(** [io.Copy(io.Discard, reader)], its results dropped. *)
Definition drain (st : World) : World :=
  let r := reader st in
  let res := io_Copy Discard (pending r) tt in
  emit (EvDrain (is_ok (snd res)))
    (set_reader (mkReadCloser (fst (fst res)) (close_result r) (close_calls r)) st).

(** [reader.Close()]. *)
Definition reader_Close (st : World) : World * option error :=
  let r := reader st in
  (emit (EvClose HReader (is_ok (close_result r)))
     (release HReader
        (set_reader (mkReadCloser (pending r) (close_result r) (S (close_calls r))) st)),
   close_result r).

(** What the S3 client reads from the body of a request. *)
Definition read_body (body : option Handle) (st : World) : bytes :=
  match body with
  | Some (HFile path) => file_content path st
  | _ => []
  end.

(** [getObjectKey]. *)
Definition getObjectKey (writer : S3DatabaseWriter) (editionID : string) : string :=
  editionID +:+ extension.

(** [GetHash]: the ETag of the object of the edition.  The response of a
    successful request carries an open body, which [GetObject] hands to its
    caller; the ETag pointer is dereferenced as it is. *)
Definition GetHash (writer : S3DatabaseWriter) (editionID : string) (st : World)
  : World * GoResult (string * option error) :=
  let objectKey := getObjectKey writer editionID in
  match GetObject (s3Client writer) (s3Bucket writer) objectKey with
  | inr err =>
      let st1 := emit (EvGetObject (s3Bucket writer) objectKey false) st in
      if errors_As_NoSuchKey err
      then (st1, Returned (ZeroMD5, None))
      else (st1, Returned ("", Some (Errorf_w
              ("failed to Get Object " +:+ objectKey +:+ " in bucket " +:+
               s3Bucket writer +:+ ": ") err)))
  | inl response =>
      let st1 := emit (EvGetObject (s3Bucket writer) objectKey true)
                   (acquire (HResponseBody (s3Bucket writer) objectKey) st) in
      match ETag response with
      | Some etag => (st1, Returned (etag, None))
      | None => (st1, Panicked "invalid memory address or nil pointer dereference")
      end
  end.

(** A deferred close: it runs on the way out, on the state and the named
    result [err] the function body left, and joins a close error to it. *)
Definition deferred (close : World -> World * option error) (wrap : error -> error)
    (body : World * option error) : World * option error :=
  let '(st, err) := body in
  let '(st', closed) := close st in
  (st', match closed with
        | Some closeErr => errors_Join [err; Some (wrap closeErr)]
        | None => err
        end).

(** Lines 117-126 of [Write]: the request, with AES-256 server-side
    encryption unless the writer has it disabled.  The fields the literal
    leaves out have their zero values. *)
Definition s3PutObject (writer : S3DatabaseWriter) (key : string) (s3Body : Handle)
  : PutObjectInput :=
  let input :=
    {| Bucket := Some (s3Bucket writer);
       Key := Some key;
       ServerSideEncryption := ServerSideEncryptionAes256;
       Body := Some s3Body;
       Tagging := None;
       Metadata := ∅ |} in
  if disableEncryption writer
  then {| Bucket := Bucket input;
          Key := Key input;
          ServerSideEncryption := "";
          Body := Body input;
          Tagging := Tagging input;
          Metadata := Metadata input |}
  else input.

(** Lines 127-134 of [Write]: the upload and the log line. *)
Definition Write_upload (writer : S3DatabaseWriter) (editionID newMD5 key : string)
    (s3Body : Handle) (st : World) : World * option error :=
  let input := s3PutObject writer key s3Body in
  let sent := read_body (Body input) st in
  match PutObject (s3Client writer) input sent with
  | Some err =>
      (emit (EvPutObject input sent false) st,
       Some (Errorf_w "encountered an error writing file to S3: " err))
  | None =>
      let st1 := emit (EvPutObject input sent true) st in
      let st2 :=
        if verbose writer
        then emit (EvLog ("Database " +:+ editionID +:+ " successfully updated: " +:+ newMD5)) st1
        else st1 in
      (st2, None)
  end.

(** Lines 98-134 of [Write], with the deferred close of [s3Body]. *)
Definition Write_staged (writer : S3DatabaseWriter) (editionID newMD5 key tempFile : string)
    (fw : fileWriter) (st : World) : World * option error :=
  match fw_write fw st with
  | (st1, Some err) =>
      (st1, Some (Errorf_w ("writing to the temp file for " +:+ editionID +:+ ": ") err))
  | (st1, None) =>
      match fw_validateHash fw newMD5 st1 with
      | (st2, Some err) =>
          (st2, Some (Errorf_w ("validating hash for " +:+ editionID +:+ ": ") err))
      | (st2, None) =>
          match os_OpenFile tempFile st2 with
          | (st3, inr err) =>
              (st3, Some (Errorf_w
                 ("opening temp file to read for " +:+ editionID +:+ ": ") err))
          | (st3, inl s3Body) =>
              deferred (file_Close s3Body) (Errorf_w "closing file reader: ")
                (Write_upload writer editionID newMD5 key s3Body st3)
          end
      end
  end.

(** Lines 85-134 of [Write], with the deferred close of [fw]. *)
Definition Write_body (writer : S3DatabaseWriter) (editionID newMD5 : string) (st : World)
  : World * option error :=
  let key := getObjectKey writer editionID in
  let tempFile := path_Join "tmp" key +:+ tempExtension in
  match newFileWriter tempFile st with
  | (st1, inr err) =>
      (st1, Some (Errorf_w ("setting up database writer for " +:+ editionID +:+ ": ") err))
  | (st1, inl fw) =>
      deferred (fw_close fw) (Errorf_w "closing file writer: ")
        (Write_staged writer editionID newMD5 key tempFile fw st1)
  end.

(** [Write].  The stream is the [reader] of the state; the fourth argument,
    the modification time, has no name in the source.  The first deferred
    function, which runs last, drains the stream and closes it. *)
Definition Write (writer : S3DatabaseWriter) (editionID : string) (newMD5 : string)
    (_ : Z) (st : World) : World * option error :=
  deferred (fun st' => reader_Close (drain st'))
    (Errorf_w ("closing reader for " +:+ editionID +:+ ": "))
    (Write_body writer editionID newMD5 st).

End Writer.


(** ** Observations on a run *)

(** The calls made between two states of one run, oldest first. *)
Definition events_since (st st' : World) : list Event :=
  drop (length (trace st)) (trace st').

Definition is_upload (ev : Event) : bool :=
  match ev with EvPutObject _ _ _ => true | _ => false end.

Definition is_data (r : ReadEvent) : bool :=
  match r with ReadData _ => true | ReadErr _ => false end.

(** The result of a call reports the error [cause]. *)
Definition reported (res : option error) (cause : error) : Prop :=
  match res with
  | Some e => reports e cause = true
  | None => False
  end.

(** The result reports [cause] as [fmt.Errorf] wrapped it under [prefix]:
    both the wrapping error and the cause are in its tree. *)
Definition reported_as (res : option error) (prefix : string) (cause : error) : Prop :=
  reported res (Errorf_w prefix cause) /\ reported res cause.

(** The message of the returned error starts with [prefix]. *)
Definition starts_with (res : option error) (prefix : string) : Prop :=
  exists e rest, res = Some e /\ Error e = prefix +:+ rest.

(** Does [sub] occur in [s]? *)
Fixpoint contains (sub s : string) : bool :=
  String.prefix sub s ||
  match s with
  | EmptyString => false
  | String _ rest => contains sub rest
  end.

(** ** Concrete runs *)

Module Scenario.

(** Stand-ins for the two library functions: [path.Join] on clean elements,
    and a digest that spells the bytes out. *)
Definition join (dir name : string) : string := dir +:+ "/" +:+ name.
Definition digest (content : bytes) : string := string_of_list_byte content.

Definition ext : string := ".mmdb".
Definition tmpext : string := ".temporary".
Definition zero : string := "00000000000000000000000000000000".

Definition os_ok : OS :=
  mkOS (fun _ => None) (fun _ _ => None) None None (fun _ => None) None.

Definition os_no_dir : OS :=
  mkOS (fun _ => Some (errorString "mkdir tmp: permission denied"))
       (fun _ _ => None) None None (fun _ => None) None.

Definition os_bad_close : OS :=
  mkOS (fun _ => None) (fun _ _ => None) None
       (Some (errorString "close: input/output error")) (fun _ => None)
       (Some (errorString "close: bad file descriptor")).

(** A store that holds the object and accepts uploads. *)
Definition store_ok : S3Client :=
  mkS3Client (fun _ _ => inl (mkGetObjectOutput (Some "9e107d9d372bb6826bd81d3542a419d6")))
             (fun _ _ => None).

(** A store without the object. *)
Definition store_empty : S3Client :=
  mkS3Client (fun _ key =>
                inr (wrapError "operation error S3: GetObject, NoSuchKey: The specified key does not exist."
                       (NoSuchKey "The specified key does not exist.")))
             (fun _ _ => None).

(** A store that cannot be reached. *)
Definition store_down : S3Client :=
  mkS3Client (fun _ _ => inr (errorString "connection reset"))
             (fun _ _ => Some (errorString "connection reset")).

(** A store whose answer has no ETag. *)
Definition store_no_etag : S3Client :=
  mkS3Client (fun _ _ => inl (mkGetObjectOutput None)) (fun _ _ => None).

Definition writer_for (client : S3Client) : S3DatabaseWriter :=
  fst (NewS3DatabaseWriter client "geoip-bucket" false).

Definition hello : bytes := list_byte_of_string "hello".
Definition world : bytes := list_byte_of_string "world".

(** The stream delivers "hello", "world" and ends; closing it succeeds. *)
Definition st_hello : World :=
  mkWorld ∅ (mkReadCloser [ReadData hello; ReadData world] None 0) [HReader] [].

(** The stream delivers "hello", then a read fails, then "world" is due;
    closing it fails. *)
Definition st_broken : World :=
  mkWorld ∅ (mkReadCloser [ReadData hello; ReadErr (errorString "unexpected EOF");
                           ReadData world]
               (Some (errorString "close: connection closed")) 0) [HReader] [].

Definition run (os : OS) (client : S3Client) (newMD5 : string) (t : Z) (st : World)
  : World * option error :=
  Write ext tmpext join digest os (writer_for client) "GeoLite2-City" newMD5 t st.

Definition query (client : S3Client) (editionID : string) : World * GoResult (string * option error) :=
  GetHash zero ext (writer_for client) editionID (mkWorld ∅ (mkReadCloser [] None 0) [] []).

End Scenario.

(** ** Further observations *)

(** The calls of the unwinding: the closes and the drain. *)
Definition is_unwind (ev : Event) : bool :=
  match ev with EvClose _ _ | EvDrain _ => true | _ => false end.

(** A step of the attempt that failed. *)
Definition is_failed_step (ev : Event) : bool :=
  match ev with
  | EvCreate _ false | EvStage _ false | EvValidate _ false | EvOpen _ false
  | EvPutObject _ _ false => true
  | _ => false
  end.

Definition is_log (ev : Event) : bool :=
  match ev with EvLog _ => true | _ => false end.

(** The writer with its [verbose] field set to [v]. *)
Definition set_verbose (v : bool) (writer : S3DatabaseWriter) : S3DatabaseWriter :=
  {| s3Client := s3Client writer;
     s3Bucket := s3Bucket writer;
     disableEncryption := disableEncryption writer;
     verbose := v |}.

Module Verbose.

(** A verbose writer on the store that accepts uploads, and its run on the
    stream "hello", "world". *)
Definition writer : S3DatabaseWriter :=
  fst (NewS3DatabaseWriter Scenario.store_ok "geoip-bucket" true).

Definition run (newMD5 : string) : World * option error :=
  Write Scenario.ext Scenario.tmpext Scenario.join Scenario.digest Scenario.os_ok
    writer "GeoLite2-City" newMD5 0 Scenario.st_hello.

End Verbose.

(** * Properties *)

(** ** Errors *)

(** Induction on the tree of an error, through the members of a join. *)
Lemma error_tree_ind (P : error -> Prop) :
  (forall s, P (errorString s)) ->
  (forall msg, P (NoSuchKey msg)) ->
  (forall msg err, P err -> P (wrapError msg err)) ->
  (forall errs, Forall P errs -> P (joinError errs)) ->
  forall e, P e.
Proof.
  intros Hs Hn Hw Hj.
  fix IH 1. intros [s | msg | msg err | errs].
  - apply Hs.
  - apply Hn.
  - apply Hw, IH.
  - apply Hj. induction errs as [| e0 rest IHrest]; constructor; [apply IH | exact IHrest].
Qed.

Lemma error_eqb_refl (e : error) : error_eqb e e = true.
Proof.
  induction e as [s | msg | msg err IHe | errs IHerrs] using error_tree_ind; cbn.
  - apply String.eqb_refl.
  - apply String.eqb_refl.
  - rewrite String.eqb_refl. exact IHe.
  - induction IHerrs as [| e0 rest He0 _ IHrest]; [reflexivity |].
    rewrite He0. exact IHrest.
Qed.

Lemma reports_here (e cause : error) :
  error_eqb e cause = true -> reports e cause = true.
Proof. intros H. destruct e; cbn [reports]; rewrite H; reflexivity. Qed.

Lemma reports_refl (e : error) : reports e e = true.
Proof. apply reports_here, error_eqb_refl. Qed.

Lemma reports_wrap (msg : string) (e cause : error) :
  reports e cause = true -> reports (wrapError msg e) cause = true.
Proof. intros H. cbn [reports]. rewrite H. apply orb_true_r. Qed.

Lemma reports_Errorf_w (prefix : string) (e : error) :
  reports (Errorf_w prefix e) e = true.
Proof. apply reports_wrap, reports_refl. Qed.

Lemma reports_join_l (e e' cause : error) :
  reports e cause = true -> reports (joinError [e; e']) cause = true.
Proof. intros H. cbn [reports]. rewrite H. rewrite orb_true_l. apply orb_true_r. Qed.

Lemma reports_join_r (e e' cause : error) :
  reports e' cause = true -> reports (joinError [e; e']) cause = true.
Proof. intros H. cbn [reports]. rewrite H. rewrite orb_true_l, orb_true_r. apply orb_true_r. Qed.

Lemma reports_join_1 (e cause : error) :
  reports e cause = true -> reports (joinError [e]) cause = true.
Proof. intros H. cbn [reports]. rewrite H. rewrite orb_true_l. apply orb_true_r. Qed.

(** A deferred close keeps what the body reported, and adds its own
    failure. *)
Lemma reported_after_close (res closed : option error) (wrap : error -> error)
    (cause : error) :
  reported res cause ->
  reported match closed with
           | Some closeErr => errors_Join [res; Some (wrap closeErr)]
           | None => res
           end cause.
Proof.
  destruct res as [e |]; [| intros []]. intros H.
  destruct closed as [c |]; [| exact H].
  change (reports (joinError [e; wrap c]) cause = true).
  apply reports_join_l, H.
Qed.

Lemma reported_joined (res : option error) (e cause : error) :
  reports e cause = true -> reported (errors_Join [res; Some e]) cause.
Proof.
  intros H. destruct res as [e0 |].
  - change (reports (joinError [e0; e]) cause = true). apply reports_join_r, H.
  - change (reports (joinError [e]) cause = true). apply reports_join_1, H.
Qed.

Lemma reported_as_after_close (res closed : option error) (wrap : error -> error)
    (prefix : string) (cause : error) :
  reported_as res prefix cause ->
  reported_as match closed with
              | Some closeErr => errors_Join [res; Some (wrap closeErr)]
              | None => res
              end prefix cause.
Proof. intros [H1 H2]. split; apply reported_after_close; assumption. Qed.

Lemma reported_as_close_failure (res : option error) (prefix : string) (closeErr : error) :
  reported_as (errors_Join [res; Some (Errorf_w prefix closeErr)]) prefix closeErr.
Proof. split; apply reported_joined; [apply reports_refl | apply reports_Errorf_w]. Qed.

Lemma reported_as_Errorf_w (prefix : string) (cause : error) :
  reported_as (Some (Errorf_w prefix cause)) prefix cause.
Proof. split; [apply reports_refl | apply reports_Errorf_w]. Qed.

(** ** Messages *)

Lemma Error_join_2 (e e' : error) :
  Error (joinError [e; e']) = Error e +:+ newline +:+ Error e'.
Proof. reflexivity. Qed.

Lemma append_assoc (a b c : string) : (a +:+ b) +:+ c = a +:+ (b +:+ c).
Proof.
  induction a as [| ch a IH]; [reflexivity |].
  change (String ch ((a +:+ b) +:+ c) = String ch (a +:+ (b +:+ c))).
  by rewrite IH.
Qed.

Lemma starts_with_Errorf_w (prefix : string) (cause : error) :
  starts_with (Some (Errorf_w prefix cause)) prefix.
Proof. exists (Errorf_w prefix cause), (Error cause). split; reflexivity. Qed.

Lemma starts_with_after_close (res closed : option error) (wrap : error -> error)
    (prefix : string) :
  starts_with res prefix ->
  starts_with match closed with
              | Some closeErr => errors_Join [res; Some (wrap closeErr)]
              | None => res
              end prefix.
Proof.
  intros (e & rest & -> & He). destruct closed as [c |].
  - exists (joinError [e; wrap c]), (rest +:+ newline +:+ Error (wrap c)).
    split; [reflexivity |]. rewrite Error_join_2, He. apply append_assoc.
  - exists e, rest. split; [reflexivity | exact He].
Qed.

(** ** io.Copy *)

(** A copy that returns nil has read the stream to its end. *)
Lemma io_Copy_nil_drained {W : Type} (write : W -> bytes -> W * option error)
    (src : list ReadEvent) (dst : W) :
  snd (io_Copy write src dst) = None -> fst (fst (io_Copy write src dst)) = [].
Proof.
  revert dst. induction src as [| [chunk | e] rest IH]; intros dst; cbn.
  - reflexivity.
  - destruct (write dst chunk) as [dst' [e |]]; cbn; [discriminate | apply IH].
  - discriminate.
Qed.

(** What a copy leaves is the end of what was there. *)
Lemma io_Copy_suffix {W : Type} (write : W -> bytes -> W * option error)
    (src : list ReadEvent) (dst : W) :
  exists done, src = (done ++ fst (fst (io_Copy write src dst)))%list.
Proof.
  revert dst. induction src as [| [chunk | e] rest IH]; intros dst; cbn.
  - by exists [].
  - destruct (write dst chunk) as [dst' [e |]]; cbn.
    + by exists [ReadData chunk].
    + destruct (IH dst') as [done Hdone]. exists (ReadData chunk :: done).
      cbn. by rewrite <- Hdone.
  - by exists [ReadErr e].
Qed.

(** Discarding a stream whose reads all succeed returns nil. *)
Lemma io_Copy_Discard_data (src : list ReadEvent) :
  forallb is_data src = true -> snd (io_Copy Discard src tt) = None.
Proof.
  induction src as [| [chunk | e] rest IH]; cbn; [reflexivity | exact IH | discriminate].
Qed.

Lemma forallb_is_data_suffix (done rest : list ReadEvent) :
  forallb is_data (done ++ rest) = true -> forallb is_data rest = true.
Proof. rewrite forallb_app. intros H. apply andb_true_iff in H. apply H. Qed.

(** What discarding a stream reads: the chunks up to the end of the stream,
    or up to the first read that fails, which it returns. *)
Lemma io_Copy_Discard_reads (src : list ReadEvent) :
  exists read,
    forallb is_data read = true /\
    ((src = read /\
      fst (fst (io_Copy Discard src tt)) = [] /\
      snd (io_Copy Discard src tt) = None) \/
     (exists e,
        src = (read ++ ReadErr e :: fst (fst (io_Copy Discard src tt)))%list /\
        snd (io_Copy Discard src tt) = Some e)).
Proof.
  induction src as [| [chunk | e] rest IH].
  - exists []. split; [reflexivity |]. left. repeat split.
  - destruct IH as (read & Hdata & [(-> & Hleft & Herr) | (e & Hsrc & Herr)]).
    + exists (ReadData chunk :: read). split; [exact Hdata |]. left.
      cbn. auto.
    + exists (ReadData chunk :: read). split; [exact Hdata |]. right.
      exists e. cbn. split; [by rewrite <- Hsrc | exact Herr].
  - exists []. split; [reflexivity |]. right. exists e. cbn. auto.
Qed.

(** ** The request of an upload *)

Lemma s3PutObject_fields (writer : S3DatabaseWriter) (key : string) (s3Body : Handle) :
  Bucket (s3PutObject writer key s3Body) = Some (s3Bucket writer) /\
  Key (s3PutObject writer key s3Body) = Some key /\
  Body (s3PutObject writer key s3Body) = Some s3Body /\
  Tagging (s3PutObject writer key s3Body) = None /\
  Metadata (s3PutObject writer key s3Body) = ∅ /\
  ServerSideEncryption (s3PutObject writer key s3Body) =
    (if disableEncryption writer then "" else ServerSideEncryptionAes256).
Proof. unfold s3PutObject. destruct (disableEncryption writer); repeat split. Qed.

Lemma Body_s3PutObject (writer : S3DatabaseWriter) (key : string) (s3Body : Handle) :
  Body (s3PutObject writer key s3Body) = Some s3Body.
Proof. apply s3PutObject_fields. Qed.

(** ** The paths of Write *)

(** Unfold one run of [Write] and split it into its paths, one goal per
    combination of outcomes of the steps; the closes stay symbolic. *)
Ltac unfold_write :=
  unfold Write, Write_body, Write_staged, Write_upload, deferred, newFileWriter,
    fw_write, fw_validateHash, fw_close, os_OpenFile, file_Close, drain,
    reader_Close, file_content, read_body.

Ltac world_simpl :=
  unfold file_content;
  cbn [fst snd trace files reader open_handles emit acquire release set_reader set_file
       fw_path pending close_result close_calls];
  rewrite ?Body_s3PutObject, ?lookup_insert_eq;
  cbn [default from_option id].

Ltac split_inner :=
  match goal with
  | |- context [match ?x with _ => _ end] =>
      lazymatch x with
      | context [match _ with _ => _ end] => fail
      | close_result _ => fail
      | close_writer_err _ => fail
      | close_file_err _ => fail
      | _ => destruct x eqn:?
      end
  end.

Ltac split_paths := unfold_write; world_simpl; repeat (split_inner; world_simpl).

(** The same for the body of [Write], without its last deferred call. *)
Ltac unfold_body :=
  unfold Write_body, Write_staged, Write_upload, deferred, newFileWriter,
    fw_write, fw_validateHash, fw_close, os_OpenFile, file_Close, file_content, read_body.

Ltac events_norm :=
  unfold events_since; world_simpl;
  rewrite <- ?app_assoc; rewrite ?drop_app_length; cbn [app].

(** Find the place of an event in an explicit list of events. *)
Ltac locate :=
  repeat match goal with
  | H : _ :: _ = (?pre ++ _ :: _)%list |- _ =>
      destruct pre; cbn [app] in H; inversion H; subst; clear H
  | H : [] = (?pre ++ _ :: _)%list |- _ => destruct pre; discriminate H
  end.

Lemma nil_app_tail {A : Type} (tl : list A) : tl = ([] ++ tl)%list.
Proof. reflexivity. Qed.

Lemma cons_app_tail {A : Type} (x : A) (l pre tl : list A) :
  l = (pre ++ tl)%list -> x :: l = ((x :: pre) ++ tl)%list.
Proof. by intros ->. Qed.

(** Split an explicit list of events before a given tail. *)
Ltac before_tail := repeat first [apply nil_app_tail | apply cons_app_tail].

(** The event asked for is not among the events of this path. *)
Ltac absent Hin :=
  exfalso; cbn [In] in Hin;
  repeat (destruct Hin as [Hin | Hin]; [discriminate Hin |]); exact Hin.

(** The places an event can have among the events of this path. *)
Ltac pick Hin :=
  cbn [In] in Hin;
  repeat (destruct Hin as [Hin | Hin]; try discriminate Hin);
  try (exfalso; exact Hin).

Lemma failed_after_close (res closed : option error) (wrap : error -> error) :
  res <> None ->
  match closed with
  | Some closeErr => errors_Join [res; Some (wrap closeErr)]
  | None => res
  end <> None.
Proof. destruct res, closed; cbn; congruence. Qed.

Ltac run_failed := repeat apply failed_after_close; discriminate.

Lemma remove_first_head (h : Handle) (l : list Handle) : remove_first h (h :: l) = l.
Proof. cbn. by rewrite decide_True. Qed.

(** The returned error reports the cause of a failed close [x]. *)
Ltac settle_close x :=
  let Hin := fresh "Hin" in
  let c := fresh "c" in
  intros Hin; destruct x as [c |] eqn:?; cbn [is_ok] in Hin |- *;
  first
    [ absent Hin
    | exists c; split; [reflexivity |];
      repeat first [apply reported_as_close_failure | apply reported_as_after_close] ].

(** The returned error reports the cause of the failed step. *)
Ltac settle_step :=
  repeat apply reported_as_after_close; apply reported_as_Errorf_w.

Section WriterFacts.

Variables ZeroMD5 extension tempExtension : string.
Variable path_Join : string -> string -> string.
Variable md5_hex : bytes -> string.
Variable os : OS.

Local Abbreviation Write' := (Write extension tempExtension path_Join md5_hex os).
Local Abbreviation key_of writer editionID := (getObjectKey extension writer editionID).
Local Abbreviation tempFile_of writer editionID :=
  (path_Join "tmp" (getObjectKey extension writer editionID) +:+ tempExtension).

(** The modification time plays no part in a run. *)
Lemma Write_ignores_time
    (writer : S3DatabaseWriter) (editionID newMD5 : string) (t t' : Z) (st : World) :
  Write' writer editionID newMD5 t' st = Write' writer editionID newMD5 t st.
Proof. reflexivity. Qed.

(** An upload call of a run: its request, what it sends, its outcome. *)
Lemma Write_upload_event
    (writer : S3DatabaseWriter) (editionID newMD5 : string) (t : Z) (st : World)
    (input : PutObjectInput) (body : bytes) (ok : bool) :
  let res := Write' writer editionID newMD5 t st in
  let tmp := tempFile_of writer editionID in
  In (EvPutObject input body ok) (events_since st (fst res)) ->
  input = s3PutObject writer (key_of writer editionID) (HFile tmp) /\
  files (fst res) !! tmp = Some body /\
  EqualFold (md5_hex body) newMD5 = true /\
  ok = is_ok (PutObject (s3Client writer) input body).
Proof.
  intros res tmp. subst tmp.
  destruct res as [st' err] eqn:Hrun. subst res. revert Hrun.
  split_paths; intros [= <- <-]; events_norm; cbn [In].
  all: intros Hin; repeat (destruct Hin as [Hin | Hin]; try discriminate Hin); try (exfalso; exact Hin).
  all: injection Hin as <- <- <-.
  all: repeat split; try assumption.
  all: match goal with H : PutObject _ _ _ = _ |- _ => by rewrite H end.
Qed.

(** C1: in every run of [Write], an upload is preceded by a successful
    staging write and then a successful hash validation; a run whose staging
    fails (setting the temp file up, or writing to it), or whose staged
    bytes do not hash to the expected value, returns an error and makes no
    upload call. *)
Theorem Write_uploads_only_after_validation
    (writer : S3DatabaseWriter) (editionID newMD5 : string) (t : Z) (st : World) :
  let res := Write' writer editionID newMD5 t st in
  let evs := events_since st (fst res) in
  let tmp := tempFile_of writer editionID in
  (forall pre ev post,
      evs = (pre ++ ev :: post)%list -> is_upload ev = true ->
      exists a b c,
        pre = (a ++ EvStage tmp true :: b ++ EvValidate newMD5 true :: c)%list) /\
  (In (EvCreate tmp false) evs \/ In (EvStage tmp false) evs ->
      snd res <> None /\ existsb is_upload evs = false) /\
  (EqualFold (md5_hex (file_content tmp (fst res))) newMD5 = false ->
      snd res <> None /\ existsb is_upload evs = false).
Proof.
  intros res evs tmp. subst evs tmp.
  destruct res as [st' err] eqn:Hrun. subst res. revert Hrun.
  split_paths; intros [= <- <-]; events_norm.
  all: cbn [In existsb is_upload orb].
  all: split;
    [ intros pre ev post Hevs Hup; locate; try discriminate Hup
    | split; [intros [Hin | Hin] | intros Hhash] ].
  all: try (exists [EvCreate (tempFile_of writer editionID) true], [],
                   [EvOpen (tempFile_of writer editionID) true]; reflexivity).
  all: try (split; [run_failed | auto]).
  all: try (exfalso; intuition discriminate).
  all: try congruence.
Qed.

(** C3 (as amended): every upload of [Write] goes to the writer's bucket
    under the canonical key of the edition with the staged temp file as its
    body, and carries no tagging and no metadata: neither the expected hash
    nor a [DateModifiedTag] is attached; the modification-time argument has
    no influence on the run. *)
Theorem Write_upload_request
    (writer : S3DatabaseWriter) (editionID newMD5 : string) (t : Z) (st : World)
    (input : PutObjectInput) (body : bytes) (ok : bool) :
  In (EvPutObject input body ok)
     (events_since st (fst (Write' writer editionID newMD5 t st))) ->
  Bucket input = Some (s3Bucket writer) /\
  Key input = Some (key_of writer editionID) /\
  Body input = Some (HFile (tempFile_of writer editionID)) /\
  Tagging input = None /\
  Metadata input = ∅ /\
  Metadata input !! DateModifiedTag = None /\
  (forall t', Write' writer editionID newMD5 t' st = Write' writer editionID newMD5 t st).
Proof.
  intros Hin. apply Write_upload_event in Hin as (-> & _).
  pose proof (s3PutObject_fields writer (key_of writer editionID)
                (HFile (tempFile_of writer editionID))) as (? & ? & ? & ? & Hmeta & _).
  repeat split; try assumption. by rewrite Hmeta.
Qed.

(** C7: every upload [Write] performs asks for AES-256 server-side
    encryption unless the writer's [disableEncryption] flag is set, in which
    case the setting is empty; the setting is empty exactly when the flag is
    set; and [NewS3DatabaseWriter] builds a writer with the flag off. *)
Theorem Write_encryption_setting
    (client : S3Client) (bucket : string) (v : bool)
    (writer : S3DatabaseWriter) (editionID newMD5 : string) (t : Z) (st : World)
    (input : PutObjectInput) (body : bytes) (ok : bool) :
  In (EvPutObject input body ok)
     (events_since st (fst (Write' writer editionID newMD5 t st))) ->
  disableEncryption (fst (NewS3DatabaseWriter client bucket v)) = false /\
  ServerSideEncryption input =
    (if disableEncryption writer then "" else ServerSideEncryptionAes256) /\
  (ServerSideEncryption input = "" <-> disableEncryption writer = true).
Proof.
  intros Hin. apply Write_upload_event in Hin as (-> & _).
  pose proof (s3PutObject_fields writer (key_of writer editionID)
                (HFile (tempFile_of writer editionID))) as (_ & _ & _ & _ & _ & Hsse).
  split; [reflexivity |]. split; [exact Hsse |].
  rewrite Hsse. unfold ServerSideEncryptionAes256.
  destruct (disableEncryption writer); split; intros H; try reflexivity; discriminate H.
Qed.

(** X9: [Write] releases what it acquires: when it returns, the staged-file
    writer and the temp-file read handle are closed again, and the stream
    has been given up. *)
Lemma Write_releases_handles
    (writer : S3DatabaseWriter) (editionID newMD5 : string) (t : Z) (st : World) :
  open_handles (fst (Write' writer editionID newMD5 t st)) =
  remove_first HReader (open_handles st).
Proof.
  split_paths; rewrite ?remove_first_head; reflexivity.
Qed.

Local Abbreviation Write_body' := (Write_body extension tempExtension path_Join md5_hex os).

(** How [Write] ends: the drain and the close of the stream act on the
    state its body left, and only the close adds to the error of the
    body. *)
Lemma Write_after_body
    (writer : S3DatabaseWriter) (editionID newMD5 : string) (t : Z) (st : World) :
  let body := Write_body' writer editionID newMD5 st in
  pending (reader (fst (Write' writer editionID newMD5 t st))) =
    fst (fst (io_Copy Discard (pending (reader (fst body))) tt)) /\
  snd (Write' writer editionID newMD5 t st) =
    match close_result (reader (fst body)) with
    | Some closeErr =>
        errors_Join [snd body;
                     Some (Errorf_w ("closing reader for " +:+ editionID +:+ ": ") closeErr)]
    | None => snd body
    end.
Proof.
  intros body. subst body. unfold Write, deferred.
  destruct (Write_body' writer editionID newMD5 st) as [st1 err1].
  unfold reader_Close, drain. cbn. split; reflexivity.
Qed.

(** The body of [Write] reads the stream from its front and never closes
    it. *)
Lemma Write_body_stream
    (writer : S3DatabaseWriter) (editionID newMD5 : string) (st : World) :
  let body := Write_body' writer editionID newMD5 st in
  close_result (reader (fst body)) = close_result (reader st) /\
  close_calls (reader (fst body)) = close_calls (reader st) /\
  exists done, pending (reader st) = (done ++ pending (reader (fst body)))%list.
Proof.
  intros body. subst body.
  unfold_body; world_simpl; repeat (split_inner; world_simpl).
  all: split; [reflexivity |]; split; [reflexivity |].
  all: try (by exists []).
  all: match goal with
       | Heqp : io_Copy (file_write os) ?src [] = (?l, _, _) |- _ =>
           destruct (io_Copy_suffix (file_write os) src []) as [read Hread];
           rewrite Heqp in Hread; cbn [fst] in Hread; exists read; exact Hread
       end.
Qed.

(** The end of every run: the drain, then the close, and what the drain
    leaves when it returns nil or the reads all succeed. *)
Lemma Write_ends_with_drain_and_close
    (writer : S3DatabaseWriter) (editionID newMD5 : string) (t : Z) (st : World) :
  let st' := fst (Write' writer editionID newMD5 t st) in
  close_calls (reader st') = S (close_calls (reader st)) /\
  (exists pre drained,
     events_since st st' =
       (pre ++ [EvDrain drained; EvClose HReader (is_ok (close_result (reader st)))])%list /\
     (drained = true -> pending (reader st') = [])) /\
  (exists done, pending (reader st) = (done ++ pending (reader st'))%list) /\
  (forallb is_data (pending (reader st)) = true -> pending (reader st') = []).
Proof.
  intros st'. subst st'.
  assert (Hdrain : forall src, is_ok (snd (io_Copy Discard src tt)) = true ->
                               fst (fst (io_Copy Discard src tt)) = []).
  { intros src H. apply io_Copy_nil_drained.
    destruct (snd (io_Copy Discard src tt)); [discriminate | reflexivity]. }
  assert (Hdata : forall src, forallb is_data src = true ->
                              fst (fst (io_Copy Discard src tt)) = []).
  { intros src H. apply io_Copy_nil_drained, io_Copy_Discard_data, H. }
  split_paths; events_norm.
  all: split; [reflexivity |].
  all: split; [eexists _, _; split; [before_tail | apply Hdrain] |].
  all: try match goal with
       | Heqp : io_Copy (file_write os) ?src [] = (?l, _, _) |- _ =>
           let d := fresh "read" in
           let Hd := fresh "Hread" in
           destruct (io_Copy_suffix (file_write os) src []) as [d Hd];
           rewrite Heqp in Hd; cbn [fst] in Hd
       end.
  all: split;
    [ first
        [ apply io_Copy_suffix
        | match goal with
          | Hread : _ = (?read ++ ?l)%list |- _ =>
              destruct (io_Copy_suffix Discard l tt) as [more Hmore];
              exists (read ++ more)%list; rewrite <- app_assoc, <- Hmore; exact Hread
          end ]
    | intros Hall; apply Hdata;
      first
        [ exact Hall
        | match goal with
          | Hread : _ = (_ ++ _)%list |- _ =>
              rewrite Hread in Hall; exact (forallb_is_data_suffix _ _ Hall)
          end ] ].
Qed.

(** C5 (as amended): on every outcome, the last two calls of [Write] are
    the drain of the stream and then its close, and the stream is closed
    exactly once.  The drain is best effort: from where the body of [Write]
    left the stream it reads chunk after chunk until the stream ends or a
    read fails, so either nothing is left unread, or what is left is what
    follows the first failing read; a stream whose reads all succeed is left
    empty.  The failure of the drain is ignored: the returned error is the
    error of the body, joined with the error of the close when the close
    fails, and nothing else. *)
Theorem Write_drains_then_closes_reader
    (writer : S3DatabaseWriter) (editionID newMD5 : string) (t : Z) (st : World) :
  let res := Write' writer editionID newMD5 t st in
  let st' := fst res in
  let body := Write_body' writer editionID newMD5 st in
  close_calls (reader st') = S (close_calls (reader st)) /\
  (exists pre drained,
     events_since st st' =
       (pre ++ [EvDrain drained; EvClose HReader (is_ok (close_result (reader st)))])%list /\
     (drained = true -> pending (reader st') = [])) /\
  (exists done, pending (reader st) = (done ++ pending (reader st'))%list) /\
  (forallb is_data (pending (reader st)) = true -> pending (reader st') = []) /\
  (pending (reader st') = [] \/
   exists before e,
     pending (reader st) = (before ++ ReadErr e :: pending (reader st'))%list) /\
  (exists read,
     forallb is_data read = true /\
     ((pending (reader (fst body)) = read /\ pending (reader st') = []) \/
      exists e,
        pending (reader (fst body)) = (read ++ ReadErr e :: pending (reader st'))%list)) /\
  snd res =
    match close_result (reader st) with
    | Some closeErr =>
        errors_Join [snd body;
                     Some (Errorf_w ("closing reader for " +:+ editionID +:+ ": ") closeErr)]
    | None => snd body
    end.
Proof.
  intros res st' body. subst res st'.
  destruct (Write_ends_with_drain_and_close writer editionID newMD5 t st)
    as (Hcalls & Hlast & Hsuffix & Hdata).
  destruct (Write_after_body writer editionID newMD5 t st) as [Hleft Herr].
  destruct (Write_body_stream writer editionID newMD5 st) as (Hclose & _ & done & Hdone).
  fold body in Hleft, Herr, Hclose, Hdone.
  destruct (io_Copy_Discard_reads (pending (reader (fst body))))
    as (read & Hread & [(Hmid & Hnil & _) | (e & Hmid & _)]);
    rewrite <- Hleft in *.
  - repeat apply conj; try assumption.
    + by left.
    + exists read. split; [exact Hread |]. left. by split.
    + rewrite Herr, Hclose. reflexivity.
  - repeat apply conj; try assumption.
    + right. exists (done ++ read)%list, e.
      rewrite Hdone, Hmid at 1. by rewrite <- app_assoc.
    + exists read. split; [exact Hread |]. right. by exists e.
    + rewrite Herr, Hclose. reflexivity.
Qed.

(** C6: [Write] deletes no file.  Every file that was there is still there
    when it returns, the staged temp file it created is there, and after an
    upload that failed the staged file holds the validated bytes that were
    sent. *)
Theorem Write_keeps_staged_file
    (writer : S3DatabaseWriter) (editionID newMD5 : string) (t : Z) (st : World) :
  let res := Write' writer editionID newMD5 t st in
  let evs := events_since st (fst res) in
  let tmp := tempFile_of writer editionID in
  (forall path, is_Some (files st !! path) -> is_Some (files (fst res) !! path)) /\
  (In (EvCreate tmp true) evs -> is_Some (files (fst res) !! tmp)) /\
  (forall input body,
      In (EvPutObject input body false) evs ->
      snd res <> None /\
      files (fst res) !! tmp = Some body /\
      EqualFold (md5_hex body) newMD5 = true).
Proof.
  intros res evs tmp. subst evs tmp.
  destruct res as [st' err] eqn:Hrun. subst res. revert Hrun.
  split_paths; intros [= <- <-]; events_norm.
  all: split; [intros path Hpath; rewrite ?lookup_insert_is_Some'; auto |].
  all: split; [intros Hin; first [absent Hin | rewrite ?lookup_insert_eq; by eexists] |].
  all: intros input body Hin; first [absent Hin | idtac].
  all: cbn [In] in Hin; repeat (destruct Hin as [Hin | Hin]; try discriminate Hin);
       try (exfalso; exact Hin).
  all: injection Hin as <- <-.
  all: split; [run_failed | split; [rewrite ?lookup_insert_eq; reflexivity | assumption]].
Qed.

(** C8: whatever fails while [Write] unwinds is reported together with the
    error of the step that failed.  The returned error holds, wrapped by its
    own [fmt.Errorf], the cause of every failed close (the stream, the
    staged-file writer, the temp-file read handle) and the cause of the
    failed step (set-up, staging write, hash validation, opening the temp
    file, upload); a close that fails makes the result an error even when
    every step succeeded. *)
Theorem Write_aggregates_close_errors
    (writer : S3DatabaseWriter) (editionID newMD5 : string) (t : Z) (st : World) :
  let res := Write' writer editionID newMD5 t st in
  let evs := events_since st (fst res) in
  let tmp := tempFile_of writer editionID in
  (In (EvClose HReader false) evs ->
     exists c, close_result (reader st) = Some c /\
               reported_as (snd res) ("closing reader for " +:+ editionID +:+ ": ") c) /\
  (In (EvClose (HFileWriter tmp) false) evs ->
     exists c, close_writer_err os = Some c /\
               reported_as (snd res) "closing file writer: " c) /\
  (In (EvClose (HFile tmp) false) evs ->
     exists c, close_file_err os = Some c /\
               reported_as (snd res) "closing file reader: " c) /\
  (In (EvCreate tmp false) evs ->
     exists p, create_err os tmp = Some p /\
               reported_as (snd res)
                 ("setting up database writer for " +:+ editionID +:+ ": ") p) /\
  (In (EvStage tmp false) evs ->
     exists p, snd (fw_write os (mkFileWriter tmp) (fst (newFileWriter os tmp st))) = Some p /\
               reported_as (snd res)
                 ("writing to the temp file for " +:+ editionID +:+ ": ") p) /\
  (In (EvValidate newMD5 false) evs ->
     reported_as (snd res) ("validating hash for " +:+ editionID +:+ ": ")
       (HashMismatchError (md5_hex (file_content tmp (fst res))) newMD5)) /\
  (In (EvOpen tmp false) evs ->
     exists p, open_err os tmp = Some p /\
               reported_as (snd res)
                 ("opening temp file to read for " +:+ editionID +:+ ": ") p) /\
  (forall input body,
     In (EvPutObject input body false) evs ->
     exists p, PutObject (s3Client writer) input body = Some p /\
               reported_as (snd res) "encountered an error writing file to S3: " p).
Proof.
  intros res evs tmp. subst evs tmp.
  destruct res as [st' err] eqn:Hrun. subst res. revert Hrun.
  split_paths; intros [= <- <-]; events_norm.
  all: repeat apply conj.
  all: lazymatch goal with
       | |- In (EvClose HReader false) _ -> _ => settle_close (close_result (reader st))
       | |- In (EvClose (HFileWriter _) false) _ -> _ => settle_close (close_writer_err os)
       | |- In (EvClose (HFile _) false) _ -> _ => settle_close (close_file_err os)
       | |- forall input body, _ =>
           intros input body Hin;
           first [ absent Hin
                 | pick Hin; injection Hin as <- <-;
                   eexists; split; [eassumption |]; settle_step ]
       | |- _ -> exists p, _ =>
           intros Hin;
           first [ absent Hin
                 | eexists; split; [first [reflexivity | eassumption] |]; settle_step ]
       | |- _ -> reported_as _ _ _ =>
           intros Hin; first [absent Hin | settle_step]
       end.
Qed.

Local Abbreviation GetHash' := (GetHash ZeroMD5 extension).

(** C9 (as amended): the error [Write] returns for a failed set-up, staging
    write, hash validation or opening of the temp file starts with the
    operation and the edition identifier, whatever is joined to it
    afterwards; the error [GetHash] returns names the object key (the
    edition identifier followed by the extension) and the bucket, before the
    message of the cause. *)
Theorem errors_name_operation_and_edition
    (writer : S3DatabaseWriter) (editionID newMD5 : string) (t : Z) (st : World) :
  let res := Write' writer editionID newMD5 t st in
  let evs := events_since st (fst res) in
  let tmp := tempFile_of writer editionID in
  (In (EvCreate tmp false) evs ->
     starts_with (snd res) ("setting up database writer for " +:+ editionID +:+ ": ")) /\
  (In (EvStage tmp false) evs ->
     starts_with (snd res) ("writing to the temp file for " +:+ editionID +:+ ": ")) /\
  (In (EvValidate newMD5 false) evs ->
     starts_with (snd res) ("validating hash for " +:+ editionID +:+ ": ")) /\
  (In (EvOpen tmp false) evs ->
     starts_with (snd res) ("opening temp file to read for " +:+ editionID +:+ ": ")) /\
  (forall err,
     GetObject (s3Client writer) (s3Bucket writer) (key_of writer editionID) = inr err ->
     errors_As_NoSuchKey err = false ->
     exists e,
       snd (GetHash' writer editionID st) = Returned ("", Some e) /\
       Error e = ("failed to Get Object " +:+ (editionID +:+ extension) +:+
                  " in bucket " +:+ s3Bucket writer +:+ ": ") +:+ Error err).
Proof.
  intros res evs tmp. subst evs tmp.
  split; [| split; [| split; [| split]]].
  5: { intros err Hget Hnot. unfold GetHash. rewrite Hget, Hnot.
       eexists. split; reflexivity. }
  all: destruct res as [st' err] eqn:Hrun; subst res; revert Hrun.
  all: split_paths; intros [= <- <-]; events_norm.
  all: intros Hin; first [absent Hin | idtac].
  all: repeat apply starts_with_after_close; apply starts_with_Errorf_w.
Qed.

(** C2: [GetHash] answers a missing object (a failure that is a NoSuchKey)
    with the zero hash and a nil error; every other failure with an error
    that wraps the cause, which is never that answer; and a response with an
    ETag with that ETag and a nil error. *)
Theorem GetHash_absent_failed_found
    (writer : S3DatabaseWriter) (editionID : string) (st : World) :
  let res := snd (GetHash' writer editionID st) in
  let answer := GetObject (s3Client writer) (s3Bucket writer) (key_of writer editionID) in
  (forall err, answer = inr err -> errors_As_NoSuchKey err = true ->
     res = Returned (ZeroMD5, None)) /\
  (forall err, answer = inr err -> errors_As_NoSuchKey err = false ->
     exists e, res = Returned ("", Some e) /\ reports e err = true /\
               res <> Returned (ZeroMD5, None)) /\
  (forall response etag, answer = inl response -> ETag response = Some etag ->
     res = Returned (etag, None)).
Proof.
  intros res answer. subst res answer. unfold GetHash.
  repeat apply conj.
  - intros err -> ->. reflexivity.
  - intros err -> ->. eexists. split; [reflexivity |].
    split; [apply reports_Errorf_w | discriminate].
  - intros response etag -> Hetag. cbn. rewrite Hetag. reflexivity.
Qed.

(** C10: after a successful retrieval [GetHash] dereferences the ETag
    pointer of the response as it is: with an ETag the result is that ETag,
    and with none the call panics on the nil pointer, returning neither an
    error nor the zero hash. *)
Theorem GetHash_dereferences_ETag
    (writer : S3DatabaseWriter) (editionID : string) (st : World)
    (response : GetObjectOutput) :
  GetObject (s3Client writer) (s3Bucket writer) (key_of writer editionID) = inl response ->
  snd (GetHash' writer editionID st) =
    match ETag response with
    | Some etag => Returned (etag, None)
    | None => Panicked "invalid memory address or nil pointer dereference"
    end /\
  (ETag response = None ->
     forall hash err, snd (GetHash' writer editionID st) <> Returned (hash, err)).
Proof.
  intros Hget. unfold GetHash. rewrite Hget. cbn.
  destruct (ETag response) as [etag |]; split; try reflexivity.
  - discriminate.
  - intros _ hash err. discriminate.
Qed.

(** C4, the query: when the retrieval succeeds, the body of the response is
    open when [GetHash] returns, and [GetHash] has made no close call. *)
Lemma GetHash_leaves_body_open
    (writer : S3DatabaseWriter) (editionID : string) (st : World)
    (response : GetObjectOutput) :
  GetObject (s3Client writer) (s3Bucket writer) (key_of writer editionID) = inl response ->
  let st' := fst (GetHash' writer editionID st) in
  open_handles st' =
    HResponseBody (s3Bucket writer) (key_of writer editionID) :: open_handles st /\
  events_since st st' = [EvGetObject (s3Bucket writer) (key_of writer editionID) true].
Proof.
  intros Hget st'. subst st'. unfold GetHash. rewrite Hget.
  destruct (ETag response); events_norm; split; reflexivity.
Qed.

End WriterFacts.

(** ** Concrete runs *)

Module Runs.
Import Scenario.

(** A publish that succeeds: created, staged, validated, opened, uploaded,
    and everything closed. *)
Example publish_events :
  events_since st_hello (fst (run os_ok store_ok "HELLOWORLD" 0 st_hello)) =
  [EvCreate "tmp/GeoLite2-City.mmdb.temporary" true;
   EvStage "tmp/GeoLite2-City.mmdb.temporary" true;
   EvValidate "HELLOWORLD" true;
   EvOpen "tmp/GeoLite2-City.mmdb.temporary" true;
   EvPutObject (s3PutObject (writer_for store_ok) "GeoLite2-City.mmdb"
                  (HFile "tmp/GeoLite2-City.mmdb.temporary"))
     (hello ++ world) true;
   EvClose (HFile "tmp/GeoLite2-City.mmdb.temporary") true;
   EvClose (HFileWriter "tmp/GeoLite2-City.mmdb.temporary") true;
   EvDrain true;
   EvClose HReader true].
Proof. reflexivity. Qed.

(** A wrong expected hash: no upload, and the error says which edition. *)
Example mismatch_error :
  option_map Error (snd (run os_ok store_ok "0123" 0 st_hello)) =
  Some "validating hash for GeoLite2-City: md5 of new database (helloworld) does not match expected md5 (0123)".
Proof. reflexivity. Qed.

Example mismatch_events :
  existsb is_upload
    (events_since st_hello (fst (run os_ok store_ok "0123" 0 st_hello))) = false.
Proof. reflexivity. Qed.

(** Both the upload error and the close errors are in the result. *)
Example upload_and_close_errors :
  option_map Error (snd (run os_bad_close store_down "helloworld" 0 st_hello)) =
  Some ("encountered an error writing file to S3: connection reset" +:+ newline +:+
        "closing file reader: close: bad file descriptor" +:+ newline +:+
        "closing file writer: close: input/output error").
Proof. reflexivity. Qed.

(** The store has no object for the edition: the zero hash, no error. *)
Example query_absent :
  snd (query store_empty "NOPE") = Returned (zero, None).
Proof. reflexivity. Qed.

Example query_failed :
  snd (query store_down "GeoLite2-City") =
  Returned ("", Some (Errorf_w "failed to Get Object GeoLite2-City.mmdb in bucket geoip-bucket: "
                        (errorString "connection reset"))).
Proof. reflexivity. Qed.

(** C3, as stated, fails: this publish succeeds, and its one upload carries
    no tagging and no metadata, so the object gets neither the expected hash
    nor a [DateModifiedTag]; the run is the same for another modification
    time. *)
Lemma Write_publishes_without_provenance :
  exists input body,
    snd (run os_ok store_ok "helloworld" 1700000000 st_hello) = None /\
    filter (fun ev => is_upload ev = true)
      (events_since st_hello (fst (run os_ok store_ok "helloworld" 1700000000 st_hello))) =
      [EvPutObject input body true] /\
    Tagging input = None /\
    Metadata input !! DateModifiedTag = None /\
    Metadata input = ∅ /\
    run os_ok store_ok "helloworld" 0 st_hello =
    run os_ok store_ok "helloworld" 1700000000 st_hello.
Proof.
  exists (s3PutObject (writer_for store_ok) "GeoLite2-City.mmdb"
            (HFile "tmp/GeoLite2-City.mmdb.temporary")), (hello ++ world)%list.
  repeat apply conj; vm_compute; reflexivity.
Qed.

Lemma Write_upload_request_witness :
  In (EvPutObject (s3PutObject (writer_for store_ok) "GeoLite2-City.mmdb"
                     (HFile "tmp/GeoLite2-City.mmdb.temporary")) (hello ++ world) true)
     (events_since st_hello (fst (run os_ok store_ok "helloworld" 1700000000 st_hello))) /\
  Tagging (s3PutObject (writer_for store_ok) "GeoLite2-City.mmdb"
             (HFile "tmp/GeoLite2-City.mmdb.temporary")) = None.
Proof.
  assert (Hin : In (EvPutObject (s3PutObject (writer_for store_ok) "GeoLite2-City.mmdb"
                       (HFile "tmp/GeoLite2-City.mmdb.temporary")) (hello ++ world) true)
                  (events_since st_hello
                     (fst (run os_ok store_ok "helloworld" 1700000000 st_hello)))).
  { vm_compute. do 4 right. left. reflexivity. }
  split; [exact Hin |].
  exact (proj1 (proj2 (proj2 (proj2
           (Write_upload_request ext tmpext join digest os_ok (writer_for store_ok)
              "GeoLite2-City" "helloworld" 1700000000 st_hello _ _ _ Hin))))).
Defined.

Lemma Write_encryption_setting_witness :
  In (EvPutObject (s3PutObject (writer_for store_ok) "GeoLite2-City.mmdb"
                     (HFile "tmp/GeoLite2-City.mmdb.temporary")) (hello ++ world) true)
     (events_since st_hello (fst (run os_ok store_ok "helloworld" 0 st_hello))) /\
  ServerSideEncryption (s3PutObject (writer_for store_ok) "GeoLite2-City.mmdb"
                          (HFile "tmp/GeoLite2-City.mmdb.temporary")) = "AES256".
Proof.
  assert (Hin : In (EvPutObject (s3PutObject (writer_for store_ok) "GeoLite2-City.mmdb"
                       (HFile "tmp/GeoLite2-City.mmdb.temporary")) (hello ++ world) true)
                  (events_since st_hello (fst (run os_ok store_ok "helloworld" 0 st_hello)))).
  { vm_compute. do 4 right. left. reflexivity. }
  split; [exact Hin |].
  exact (proj1 (proj2
           (Write_encryption_setting ext tmpext join digest os_ok store_ok "geoip-bucket" false
              (writer_for store_ok) "GeoLite2-City" "helloworld" 0 st_hello _ _ _ Hin))).
Defined.

(** C5, as stated, fails: the set-up fails, a read fails during the drain,
    and [Write] returns with "world" unread in the stream, which it has
    closed. *)
Lemma Write_leaves_stream_undrained :
  pending (reader (fst (run os_no_dir store_ok "helloworld" 0 st_broken))) =
    [ReadData world] /\
  close_calls (reader (fst (run os_no_dir store_ok "helloworld" 0 st_broken))) = 1 /\
  events_since st_broken (fst (run os_no_dir store_ok "helloworld" 0 st_broken)) =
    [EvCreate "tmp/GeoLite2-City.mmdb.temporary" false; EvDrain false; EvClose HReader false].
Proof. repeat split. Qed.

(** C9, as stated, fails: the upload fails, and the message of the error
    [Write] returns does not contain the edition identifier. *)
Lemma Write_upload_error_omits_edition :
  exists e,
    snd (run os_ok store_down "helloworld" 0 st_hello) = Some e /\
    Error e = "encountered an error writing file to S3: connection reset" /\
    contains "GeoLite2-City" (Error e) = false.
Proof. eexists. repeat split. Qed.

(** C4 at the failing input: the store holds the object, [GetHash] returns
    its ETag, and the body of the response is still open. *)
Lemma GetHash_leaks_response_body :
  snd (query store_ok "GeoLite2-City") =
    Returned ("9e107d9d372bb6826bd81d3542a419d6", None) /\
  open_handles (fst (query store_ok "GeoLite2-City")) =
    [HResponseBody "geoip-bucket" "GeoLite2-City.mmdb"] /\
  trace (fst (query store_ok "GeoLite2-City")) =
    [EvGetObject "geoip-bucket" "GeoLite2-City.mmdb" true].
Proof. repeat split. Qed.

Lemma GetHash_dereferences_ETag_witness :
  GetObject (s3Client (writer_for store_no_etag)) (s3Bucket (writer_for store_no_etag))
    (getObjectKey ext (writer_for store_no_etag) "GeoLite2-City") =
    inl (mkGetObjectOutput None) /\
  snd (query store_no_etag "GeoLite2-City") =
    Panicked "invalid memory address or nil pointer dereference".
Proof.
  split; [reflexivity |].
  exact (proj1 (GetHash_dereferences_ETag zero ext (writer_for store_no_etag) "GeoLite2-City"
                  (mkWorld ∅ (mkReadCloser [] None 0) [] []) (mkGetObjectOutput None)
                  eq_refl)).
Defined.

(** The hypotheses of the properties above are met by concrete runs. *)

Lemma Write_uploads_only_after_validation_witness :
  EqualFold (digest (file_content "tmp/GeoLite2-City.mmdb.temporary"
                       (fst (run os_ok store_ok "0123" 0 st_hello)))) "0123" = false /\
  snd (run os_ok store_ok "0123" 0 st_hello) <> None /\
  existsb is_upload
    (events_since st_hello (fst (run os_ok store_ok "0123" 0 st_hello))) = false.
Proof.
  assert (H : EqualFold (digest (file_content "tmp/GeoLite2-City.mmdb.temporary"
                                   (fst (run os_ok store_ok "0123" 0 st_hello)))) "0123"
              = false) by reflexivity.
  split; [exact H |].
  exact (proj2 (proj2 (Write_uploads_only_after_validation ext tmpext join digest os_ok
                         (writer_for store_ok) "GeoLite2-City" "0123" 0 st_hello)) H).
Defined.

Lemma GetHash_absent_failed_found_witness :
  errors_As_NoSuchKey
    (wrapError "operation error S3: GetObject, NoSuchKey: The specified key does not exist."
       (NoSuchKey "The specified key does not exist.")) = true /\
  snd (query store_empty "NOPE") = Returned (zero, None).
Proof.
  split; [reflexivity |].
  exact (proj1 (GetHash_absent_failed_found zero ext (writer_for store_empty) "NOPE"
                  (mkWorld ∅ (mkReadCloser [] None 0) [] [])) _ eq_refl eq_refl).
Defined.

Lemma Write_drains_then_closes_reader_witness :
  forallb is_data (pending (reader st_hello)) = true /\
  pending (reader (fst (run os_no_dir store_ok "helloworld" 0 st_hello))) = [].
Proof.
  split; [reflexivity |].
  exact (proj1 (proj2 (proj2 (proj2 (Write_drains_then_closes_reader ext tmpext join
                                       digest os_no_dir (writer_for store_ok)
                                       "GeoLite2-City" "helloworld" 0 st_hello))))
           eq_refl).
Defined.

Lemma Write_keeps_staged_file_witness :
  In (EvPutObject (s3PutObject (writer_for store_down) "GeoLite2-City.mmdb"
                     (HFile "tmp/GeoLite2-City.mmdb.temporary")) (hello ++ world) false)
     (events_since st_hello (fst (run os_ok store_down "helloworld" 0 st_hello))) /\
  files (fst (run os_ok store_down "helloworld" 0 st_hello))
    !! "tmp/GeoLite2-City.mmdb.temporary" = Some (hello ++ world)%list.
Proof.
  assert (Hin : In (EvPutObject (s3PutObject (writer_for store_down) "GeoLite2-City.mmdb"
                       (HFile "tmp/GeoLite2-City.mmdb.temporary")) (hello ++ world) false)
                  (events_since st_hello
                     (fst (run os_ok store_down "helloworld" 0 st_hello)))).
  { vm_compute. do 4 right. left. reflexivity. }
  split; [exact Hin |].
  exact (proj1 (proj2 (proj2 (proj2 (Write_keeps_staged_file ext tmpext join digest os_ok
                                       (writer_for store_down) "GeoLite2-City" "helloworld"
                                       0 st_hello)) _ _ Hin))).
Defined.

Lemma Write_aggregates_close_errors_witness :
  In (EvClose (HFileWriter "tmp/GeoLite2-City.mmdb.temporary") false)
     (events_since st_hello (fst (run os_bad_close store_down "helloworld" 0 st_hello))) /\
  exists c,
    close_writer_err os_bad_close = Some c /\
    reported_as (snd (run os_bad_close store_down "helloworld" 0 st_hello))
      "closing file writer: " c.
Proof.
  assert (Hin : In (EvClose (HFileWriter "tmp/GeoLite2-City.mmdb.temporary") false)
                  (events_since st_hello
                     (fst (run os_bad_close store_down "helloworld" 0 st_hello)))).
  { vm_compute. do 6 right. left. reflexivity. }
  split; [exact Hin |].
  exact (proj1 (proj2 (Write_aggregates_close_errors ext tmpext join digest os_bad_close
                         (writer_for store_down) "GeoLite2-City" "helloworld" 0 st_hello))
           Hin).
Defined.

Lemma errors_name_operation_and_edition_witness :
  In (EvValidate "0123" false)
     (events_since st_hello (fst (run os_ok store_ok "0123" 0 st_hello))) /\
  starts_with (snd (run os_ok store_ok "0123" 0 st_hello))
    "validating hash for GeoLite2-City: ".
Proof.
  assert (Hin : In (EvValidate "0123" false)
                  (events_since st_hello (fst (run os_ok store_ok "0123" 0 st_hello)))).
  { vm_compute. do 2 right. left. reflexivity. }
  split; [exact Hin |].
  exact (proj1 (proj2 (proj2 (errors_name_operation_and_edition zero ext tmpext join digest
                                os_ok (writer_for store_ok) "GeoLite2-City" "0123" 0
                                st_hello))) Hin).
Defined.

End Runs.

(** * Further properties of the writer *)

Lemma length_append (a b : string) :
  String.length (a +:+ b) = String.length a + String.length b.
Proof.
  induction a as [| ch a IH]; [reflexivity |].
  change (S (String.length (a +:+ b)) = S (String.length a + String.length b)).
  by rewrite IH.
Qed.

Lemma append_inj_l (a b suffix : string) : a +:+ suffix = b +:+ suffix -> a = b.
Proof.
  revert b. induction a as [| ch a IH]; intros [| ch' b] H.
  - reflexivity.
  - apply (f_equal String.length) in H. rewrite !length_append in H. cbn in H. lia.
  - apply (f_equal String.length) in H. rewrite !length_append in H. cbn in H. lia.
  - change (String ch (a +:+ suffix) = String ch' (b +:+ suffix)) in H.
    injection H as -> H. f_equal. apply IH, H.
Qed.

Lemma cons_app_mid {A : Type} (x : A) (l pre tl : list A) :
  l = (pre ++ tl)%list -> x :: l = ((x :: pre) ++ tl)%list.
Proof. by intros ->. Qed.

(** Split an explicit list of events at its upload and log line. *)
Ltac before_log :=
  repeat first [ exact (eq_refl : _ = ([] ++ EvPutObject _ _ true :: EvLog _ :: _)%list)
               | apply cons_app_mid ].

Section WriterCoverage.
Variables ZeroMD5 extension tempExtension : string.
Variable path_Join : string -> string -> string.
Variable md5_hex : bytes -> string.
Variable os : OS.

Local Abbreviation Write' := (Write extension tempExtension path_Join md5_hex os).
Local Abbreviation GetHash' := (GetHash ZeroMD5 extension).
Local Abbreviation key_of writer editionID := (getObjectKey extension writer editionID).
Local Abbreviation tempFile_of writer editionID :=
  (path_Join "tmp" (getObjectKey extension writer editionID) +:+ tempExtension).

(** X1: [getObjectKey] is collision free: distinct edition identifiers get
    distinct object keys, so uploads of [Write] for distinct editions never
    go to the same key. *)
Theorem getObjectKey_injective
    (writer writer' : S3DatabaseWriter) (editionID editionID' newMD5 newMD5' : string)
    (t t' : Z) (st st' : World) :
  editionID <> editionID' ->
  key_of writer editionID <> key_of writer' editionID' /\
  (forall input body ok input' body' ok',
     In (EvPutObject input body ok)
        (events_since st (fst (Write' writer editionID newMD5 t st))) ->
     In (EvPutObject input' body' ok')
        (events_since st' (fst (Write' writer' editionID' newMD5' t' st'))) ->
     Key input <> Key input').
Proof.
  intros Hne.
  assert (Hkey : key_of writer editionID <> key_of writer' editionID').
  { unfold getObjectKey. intros H. apply Hne. exact (append_inj_l _ _ _ H). }
  split; [exact Hkey |].
  intros input body ok input' body' ok' Hin Hin'.
  apply Write_upload_event in Hin as (-> & _).
  apply Write_upload_event in Hin' as (-> & _).
  destruct (s3PutObject_fields writer (key_of writer editionID)
              (HFile (tempFile_of writer editionID))) as (_ & -> & _).
  destruct (s3PutObject_fields writer' (key_of writer' editionID')
              (HFile (tempFile_of writer' editionID'))) as (_ & -> & _).
  congruence.
Qed.

(** X2: [GetHash] is a read-only query of the object [Write] puts: it
    makes one GetObject request, for the writer's bucket and the key of the
    edition, which are the bucket and key of every upload [Write] makes for
    that edition, and it leaves the local files and the stream as they
    were. *)
Theorem GetHash_asks_for_what_Write_puts
    (writer : S3DatabaseWriter) (editionID : string) (st : World) :
  let q := fst (GetHash' writer editionID st) in
  files q = files st /\
  reader q = reader st /\
  (exists found,
     events_since st q = [EvGetObject (s3Bucket writer) (key_of writer editionID) found]) /\
  (forall bucket key found newMD5 t st0 input body ok,
     In (EvGetObject bucket key found) (events_since st q) ->
     In (EvPutObject input body ok)
        (events_since st0 (fst (Write' writer editionID newMD5 t st0))) ->
     Bucket input = Some bucket /\ Key input = Some key).
Proof.
  intros q. subst q.
  assert (Hq : files (fst (GetHash' writer editionID st)) = files st /\
               reader (fst (GetHash' writer editionID st)) = reader st /\
               exists found,
                 events_since st (fst (GetHash' writer editionID st)) =
                 [EvGetObject (s3Bucket writer) (key_of writer editionID) found]).
  { unfold GetHash.
    destruct (GetObject (s3Client writer) (s3Bucket writer) (key_of writer editionID))
      as [response | err];
      [destruct (ETag response) | destruct (errors_As_NoSuchKey err)];
      events_norm; repeat split; eexists; reflexivity. }
  destruct Hq as (Hfiles & Hreader & found & Hevs).
  split; [assumption |]. split; [assumption |]. split; [by exists found |].
  intros bucket key found' newMD5 t st0 input body ok Hget Hput.
  rewrite Hevs in Hget. destruct Hget as [[= <- <- _] | []].
  apply Write_upload_event in Hput as (-> & _).
  destruct (s3PutObject_fields writer (key_of writer editionID)
              (HFile (tempFile_of writer editionID))) as (? & ? & _).
  split; assumption.
Qed.

(** X3: [Write] returns nil exactly when an upload succeeded and the
    three closes (temp-file read handle, staged-file writer, stream) all
    returned nil; in particular a close that fails after a successful upload
    turns the result into an error although the object has been put. *)
Theorem Write_nil_iff_all_succeeded
    (writer : S3DatabaseWriter) (editionID newMD5 : string) (t : Z) (st : World) :
  let res := Write' writer editionID newMD5 t st in
  let evs := events_since st (fst res) in
  snd res = None <->
  (exists input body, In (EvPutObject input body true) evs) /\
  close_file_err os = None /\
  close_writer_err os = None /\
  close_result (reader st) = None.
Proof.
  intros res evs. subst evs.
  destruct res as [st' err] eqn:Hrun. subst res. revert Hrun.
  split_paths; intros [= <- <-]; events_norm.
  all: destruct (close_result (reader st)), (close_writer_err os), (close_file_err os).
  all: unfold errors_Join; cbn [omap id is_ok mbind option_bind].
  all: split; try discriminate.
  all: try (intros ([input [body Hin]] & ? & ? & ?);
            first [discriminate | absent Hin | reflexivity]).
  all: intros _; split; [| auto].
  all: eexists _, _; cbn [In]; auto 10.
Qed.

(** X4: [Write] makes at most one upload call in a run: it never
    retries. *)
Theorem Write_uploads_at_most_once
    (writer : S3DatabaseWriter) (editionID newMD5 : string) (t : Z) (st : World) :
  length (List.filter is_upload
            (events_since st (fst (Write' writer editionID newMD5 t st)))) <= 1.
Proof.
  split_paths; events_norm; cbn [List.filter is_upload length]; lia.
Qed.

(** X7: [Write] stops at the first step that fails: after a failed set-up,
    staging write, hash validation, opening of the temp file or upload, the
    only calls that follow are the closes and the drain, and the result is
    an error. *)
Theorem Write_stops_at_first_failure
    (writer : S3DatabaseWriter) (editionID newMD5 : string) (t : Z) (st : World) :
  let res := Write' writer editionID newMD5 t st in
  forall pre ev post,
    events_since st (fst res) = (pre ++ ev :: post)%list ->
    is_failed_step ev = true ->
    forallb is_unwind post = true /\ snd res <> None.
Proof.
  intros res.
  destruct res as [st' err] eqn:Hrun. subst res. revert Hrun.
  split_paths; intros [= <- <-]; events_norm.
  all: intros pre ev post Hevs Hfail; locate; try discriminate Hfail.
  all: split; [reflexivity | run_failed].
Qed.

(** X8: a writer built by [NewS3DatabaseWriter] is returned with a nil
    error, and every upload it makes goes to the bucket given to the
    constructor and asks for AES-256 server-side encryption: the constructor
    offers no way to turn encryption off. *)
Theorem NewS3DatabaseWriter_uploads_encrypted
    (client : S3Client) (bucket : string) (v : bool)
    (editionID newMD5 : string) (t : Z) (st : World)
    (input : PutObjectInput) (body : bytes) (ok : bool) :
  let built := NewS3DatabaseWriter client bucket v in
  In (EvPutObject input body ok)
     (events_since st (fst (Write' (fst built) editionID newMD5 t st))) ->
  snd built = None /\
  Bucket input = Some bucket /\
  ServerSideEncryption input = ServerSideEncryptionAes256 /\
  ok = is_ok (PutObject client input body).
Proof.
  intros built Hin. subst built.
  apply Write_upload_event in Hin as (-> & _ & _ & Hok).
  split; [reflexivity |]. split; [reflexivity |]. split; [reflexivity | exact Hok].
Qed.

(** X5: the deferred closes run in the reverse order of their
    registration, after every step.  When the temp file was opened for
    reading, a run ends with the close of that handle, the close of the
    staged-file writer, the drain of the stream and the close of the stream,
    and no close or drain comes earlier; when the staged-file writer was set
    up but the temp file not opened, with the last three; when the set-up
    failed, the run is the failed set-up, the drain and the close of the
    stream. *)
Theorem Write_unwinds_in_reverse_order
    (writer : S3DatabaseWriter) (editionID newMD5 : string) (t : Z) (st : World) :
  let evs := events_since st (fst (Write' writer editionID newMD5 t st)) in
  let tmp := tempFile_of writer editionID in
  let close_stream := EvClose HReader (is_ok (close_result (reader st))) in
  let close_writer := EvClose (HFileWriter tmp) (is_ok (close_writer_err os)) in
  let close_file := EvClose (HFile tmp) (is_ok (close_file_err os)) in
  (In (EvOpen tmp true) evs ->
     exists pre drained,
       evs = (pre ++ [close_file; close_writer; EvDrain drained; close_stream])%list /\
       existsb is_unwind pre = false) /\
  (In (EvCreate tmp true) evs -> ~ In (EvOpen tmp true) evs ->
     exists pre drained,
       evs = (pre ++ [close_writer; EvDrain drained; close_stream])%list /\
       existsb is_unwind pre = false) /\
  (In (EvCreate tmp false) evs ->
     exists drained, evs = [EvCreate tmp false; EvDrain drained; close_stream]).
Proof.
  intros evs tmp close_stream close_writer close_file.
  subst evs tmp close_stream close_writer close_file.
  split_paths; events_norm.
  all: repeat apply conj.
  all: intros Hin; try intros Hnot.
  all: first
         [ solve [absent Hin]
         | solve [exfalso; apply Hnot; cbn [In]; auto 10]
         | solve [eexists _, _; split; [before_tail | reflexivity]]
         | solve [eexists; reflexivity] ].
Qed.

(** Silencing the writer changes nothing but the log line. *)
Lemma Write_quiet
    (writer : S3DatabaseWriter) (editionID newMD5 : string) (t : Z) (st : World) :
  let res := Write' writer editionID newMD5 t st in
  let quiet := Write' (set_verbose false writer) editionID newMD5 t st in
  snd quiet = snd res /\
  files (fst quiet) = files (fst res) /\
  reader (fst quiet) = reader (fst res) /\
  open_handles (fst quiet) = open_handles (fst res) /\
  events_since st (fst quiet) =
    List.filter (fun ev => negb (is_log ev)) (events_since st (fst res)).
Proof.
  intros res quiet. subst res quiet.
  unfold_write.
  change (s3PutObject (set_verbose false writer)) with (s3PutObject writer).
  change (getObjectKey extension (set_verbose false writer) editionID)
    with (getObjectKey extension writer editionID).
  cbn [set_verbose s3Client s3Bucket verbose].
  world_simpl; repeat (split_inner; world_simpl).
  all: events_norm; repeat split.
Qed.

(** X6: [Write] logs only a publish of a verbose writer: a log line
    follows a successful upload at once, needs the [verbose] flag, and names
    the edition and the expected hash; a verbose writer logs every
    successful upload; and the flag changes nothing else: the quiet writer
    returns the same error, leaves the same files and stream, and makes the
    same calls but the log line. *)
Theorem Write_logs_only_a_verbose_publish
    (writer : S3DatabaseWriter) (editionID newMD5 : string) (t : Z) (st : World) :
  let res := Write' writer editionID newMD5 t st in
  let evs := events_since st (fst res) in
  let quiet := Write' (set_verbose false writer) editionID newMD5 t st in
  (forall msg, In (EvLog msg) evs ->
     verbose writer = true /\
     msg = "Database " +:+ editionID +:+ " successfully updated: " +:+ newMD5 /\
     exists pre input body post,
       evs = (pre ++ EvPutObject input body true :: EvLog msg :: post)%list) /\
  (verbose writer = true ->
   forall input body, In (EvPutObject input body true) evs ->
     In (EvLog ("Database " +:+ editionID +:+ " successfully updated: " +:+ newMD5)) evs) /\
  snd quiet = snd res /\
  files (fst quiet) = files (fst res) /\
  reader (fst quiet) = reader (fst res) /\
  events_since st (fst quiet) = List.filter (fun ev => negb (is_log ev)) evs.
Proof.
  intros res evs quiet.
  destruct (Write_quiet writer editionID newMD5 t st) as (Herr & Hfiles & Hreader & _ & Hevs).
  split; [| split; [| repeat split; assumption]].
  all: subst res evs quiet; clear Herr Hfiles Hreader Hevs.
  - intros msg. split_paths; events_norm; intros Hin.
    all: first [ absent Hin | pick Hin ].
    all: injection Hin as <-.
    all: split; [reflexivity | split; [reflexivity |]].
    all: eexists _, _, _, _; before_log.
  - intros Hverbose input body.
    split_paths; events_norm; intros Hin.
    all: first [ absent Hin | congruence | cbn [In]; auto 10 ].
Qed.

End WriterCoverage.

(** ** Concrete runs for the further properties *)

Module MoreRuns.
Import Scenario.

Lemma getObjectKey_injective_witness :
  "GeoLite2-City" <> "GeoLite2-Country" /\
  getObjectKey ext (writer_for store_ok) "GeoLite2-City" <>
  getObjectKey ext (writer_for store_down) "GeoLite2-Country".
Proof.
  assert (H : "GeoLite2-City" <> "GeoLite2-Country") by discriminate.
  split; [exact H |].
  exact (proj1 (getObjectKey_injective ext tmpext join digest os_ok
                  (writer_for store_ok) (writer_for store_down)
                  "GeoLite2-City" "GeoLite2-Country" "helloworld" "helloworld"
                  0 0 st_hello st_hello H)).
Defined.

Lemma Write_stops_at_first_failure_witness :
  is_failed_step (EvValidate "0123" false) = true /\
  snd (run os_ok store_ok "0123" 0 st_hello) <> None.
Proof.
  split; [reflexivity |].
  exact (proj2 (Write_stops_at_first_failure ext tmpext join digest os_ok
                  (writer_for store_ok) "GeoLite2-City" "0123" 0 st_hello
                  [EvCreate "tmp/GeoLite2-City.mmdb.temporary" true;
                   EvStage "tmp/GeoLite2-City.mmdb.temporary" true]
                  (EvValidate "0123" false)
                  [EvClose (HFileWriter "tmp/GeoLite2-City.mmdb.temporary") true;
                   EvDrain true; EvClose HReader true]
                  eq_refl eq_refl)).
Defined.

Lemma Write_unwinds_in_reverse_order_witness :
  In (EvOpen "tmp/GeoLite2-City.mmdb.temporary" true)
     (events_since st_hello (fst (run os_ok store_down "helloworld" 0 st_hello))) /\
  exists pre drained,
    events_since st_hello (fst (run os_ok store_down "helloworld" 0 st_hello)) =
      (pre ++ [EvClose (HFile "tmp/GeoLite2-City.mmdb.temporary") true;
               EvClose (HFileWriter "tmp/GeoLite2-City.mmdb.temporary") true;
               EvDrain drained; EvClose HReader true])%list /\
    existsb is_unwind pre = false.
Proof.
  assert (Hin : In (EvOpen "tmp/GeoLite2-City.mmdb.temporary" true)
                  (events_since st_hello
                     (fst (run os_ok store_down "helloworld" 0 st_hello)))).
  { vm_compute. do 3 right. left. reflexivity. }
  split; [exact Hin |].
  exact (proj1 (Write_unwinds_in_reverse_order ext tmpext join digest os_ok
                  (writer_for store_down) "GeoLite2-City" "helloworld" 0 st_hello) Hin).
Defined.

Lemma Write_logs_only_a_verbose_publish_witness :
  In (EvLog "Database GeoLite2-City successfully updated: helloworld")
     (events_since st_hello (fst (Verbose.run "helloworld"))) /\
  verbose Verbose.writer = true.
Proof.
  assert (Hin : In (EvLog "Database GeoLite2-City successfully updated: helloworld")
                  (events_since st_hello (fst (Verbose.run "helloworld")))).
  { vm_compute. do 5 right. left. reflexivity. }
  split; [exact Hin |].
  exact (proj1 (proj1 (Write_logs_only_a_verbose_publish ext tmpext join digest os_ok
                         Verbose.writer "GeoLite2-City" "helloworld" 0 st_hello) _ Hin)).
Defined.

Lemma NewS3DatabaseWriter_uploads_encrypted_witness :
  In (EvPutObject (s3PutObject Verbose.writer "GeoLite2-City.mmdb"
                     (HFile "tmp/GeoLite2-City.mmdb.temporary")) (hello ++ world) true)
     (events_since st_hello (fst (Verbose.run "helloworld"))) /\
  ServerSideEncryption (s3PutObject Verbose.writer "GeoLite2-City.mmdb"
                          (HFile "tmp/GeoLite2-City.mmdb.temporary")) = "AES256".
Proof.
  assert (Hin : In (EvPutObject (s3PutObject Verbose.writer "GeoLite2-City.mmdb"
                       (HFile "tmp/GeoLite2-City.mmdb.temporary")) (hello ++ world) true)
                  (events_since st_hello (fst (Verbose.run "helloworld")))).
  { vm_compute. do 4 right. left. reflexivity. }
  split; [exact Hin |].
  exact (proj1 (proj2 (proj2
           (NewS3DatabaseWriter_uploads_encrypted ext tmpext join digest os_ok
              store_ok "geoip-bucket" true "GeoLite2-City" "helloworld" 0 st_hello
              _ _ _ Hin)))).
Defined.

End MoreRuns.
